(** * ARECAbot dashboard: session client and telemetry/log state

    A shallow embedding of the transport/session layer of the robot
    dashboard ([services/api.ts], class [RobotApi]) and of the state
    handlers the [App] component installs on it ([App.tsx]: [addLog],
    the [api.onLog] and [api.onTelemetry] handlers, [normalizeTelemetry]),
    followed by the properties of the design document that concern them. *)

From Stdlib Require Import String Ascii List Lia.
From Stdlib Require QArith.QArith_base QArith.Qround.
From stdpp Require Import base option list gmap strings pretty.

Set Warnings "-register-all".

Open Scope string_scope.

(** ** JavaScript values *)

Section Values.

(** JavaScript numbers are IEEE doubles.  No function modelled here
    computes with a number (they are only stored, tested for being
    [null]/[undefined], and printed), so their carrier is left open. *)
Context {num : Type}.

(** The values a socket.io payload or a [JSON.parse] result can hold,
    plus [undefined].  An object is its list of own properties in
    insertion order (the order matters to [JSON.stringify]). *)
Inductive JSValue : Type :=
| JUndefined
| JNull
| JBool (b : bool)
| JNum (n : num)
| JStr (s : string)
| JArr (items : list JSValue)
| JObj (props : list (string * JSValue)).

(** Own property [k] of a property list; as in an object literal and in
    [JSON.parse], a later binding of a key overrides an earlier one. *)
Fixpoint own_property (k : string) (props : list (string * JSValue)) : option JSValue :=
  match props with
  | [] => None
  | (k', v) :: rest =>
      match own_property k rest with
      | Some w => Some w
      | None => if String.eqb k' k then Some v else None
      end
  end.

(** The property read [v.k], for the property names this program reads
    ([type], [data] and the telemetry keys): [None] is the [TypeError] of
    reading a property of [null] or [undefined]; a missing property reads
    as [undefined]; primitives and arrays have none of these names. *)
Definition get (v : JSValue) (k : string) : option JSValue :=
  match v with
  | JUndefined | JNull => None
  | JObj props => Some (default JUndefined (own_property k props))
  | _ => Some JUndefined
  end.

(** The test of [??] and [?.]: [null] or [undefined]. *)
Definition nullish (v : JSValue) : bool :=
  match v with
  | JUndefined | JNull => true
  | _ => false
  end.

Definition Array_isArray (v : JSValue) : bool :=
  match v with
  | JArr _ => true
  | _ => false
  end.

(** A two-element array, the shape [[number, number]] that
    [TelemetryData] declares for [pos]. *)
Definition is_pair (v : JSValue) : bool :=
  match v with
  | JArr [_; _] => true
  | _ => false
  end.

(** [v === s] for a string literal [s]. *)
Definition strict_eq_str (v : JSValue) (s : string) : bool :=
  match v with
  | JStr t => String.eqb t s
  | _ => false
  end.

End Values.

Arguments JSValue num : clear implicits.

(** ** The platform

    What the browser supplies and the repository does not define: number
    printing, [JSON.parse] ([None] is its [SyntaxError]),
    [JSON.stringify] (a string, or [undefined]), the page's
    [window.location.hostname], and the two sources [addLog] samples for
    every entry, [Math.random().toString(36).substr(2, 9)] and
    [new Date().toLocaleTimeString()], indexed by the number of entries
    created so far. *)
Class Platform (num : Type) := {
  Number_toString : num -> string;
  JSON_parse : string -> option (JSValue num);
  JSON_stringify : JSValue num -> JSValue num;
  location_hostname : string;
  Math_random_id : nat -> string;
  Date_toLocaleTimeString : nat -> string
}.

(** ** Strings

    A string is modelled with one [ascii] per UTF-16 code unit, which
    covers the code units below 256. *)

(** [s.startsWith(p)] *)
Definition startsWith (s p : string) : bool := String.prefix p s.

(** What follows the prefix [p] in [s], when [s] starts with it. *)
Fixpoint after_prefix (p s : string) : option string :=
  match p, s with
  | EmptyString, _ => Some s
  | String a p', String b s' => if Ascii.eqb a b then after_prefix p' s' else None
  | String _ _, EmptyString => None
  end.

(** [s.includes(m)] *)
Fixpoint includes (s m : string) : bool :=
  String.prefix m s ||
  match s with
  | EmptyString => false
  | String _ s' => includes s' m
  end.

(** The class [\s] of a regular expression, on code units below 256:
    TAB, LF, VT, FF, CR, space and the no-break space. *)
Definition is_regexp_space (c : ascii) : bool :=
  let n := nat_of_ascii c in
  ((9 <=? n)%nat && (n <=? 13)%nat) || (n =? 32)%nat || (n =? 160)%nat.

(** A string of [\s] characters only. *)
Fixpoint all_spaces (s : string) : bool :=
  match s with
  | String c s' => is_regexp_space c && all_spaces s'
  | EmptyString => true
  end.

(** [\s*] at the start of [s], greedy. *)
Fixpoint skip_spaces (s : string) : string :=
  match s with
  | String c s' => if is_regexp_space c then skip_spaces s' else s
  | EmptyString => EmptyString
  end.

(** [:?] at the start of [s], greedy. *)
Definition skip_colon (s : string) : string :=
  match s with
  | String ":" s' => s'
  | _ => s
  end.

(** [msg.replace(/^(TX|RX|SYS):?\s*/, '')] *)
Definition strip_tag (msg : string) : string :=
  match after_prefix "TX" msg with
  | Some rest => skip_spaces (skip_colon rest)
  | None =>
      match after_prefix "RX" msg with
      | Some rest => skip_spaces (skip_colon rest)
      | None =>
          match after_prefix "SYS" msg with
          | Some rest => skip_spaces (skip_colon rest)
          | None => msg
          end
      end
  end.

(** ** Errors and promises

    A thrown [Error] and its [message]. *)
Inductive JSError := Error (message : string).

Definition error_message (e : JSError) : string :=
  match e with Error m => m end.

(** How an awaited promise settles. *)
Inductive Awaited (A : Type) :=
| Fulfilled (a : A)
| Rejected (e : JSError).

Arguments Fulfilled {A} a.
Arguments Rejected {A} e.

Section Model.

Context {num : Type} `{Platform num}.

(** The string a template literal [`${v}`] makes of [v], when the
    conversion does not raise ([ToString_raises] below says when it
    does). *)
Fixpoint ToString (v : JSValue num) : string :=
  match v with
  | JUndefined => "undefined"
  | JNull => "null"
  | JBool true => "true"
  | JBool false => "false"
  | JNum n => Number_toString n
  | JStr s => s
  | JArr items =>
      String.concat "," (map (fun x => if nullish x then "" else ToString x) items)
  | JObj _ => "[object Object]"
  end.

(** Whether the string conversion of [v] raises a [TypeError].  An object
    is converted by its [toString], then by its [valueOf]: an own
    property [toString] hides [Object.prototype.toString] and, no value
    here being a function, cannot be called, and neither [valueOf] (own,
    not callable; inherited, returning the object) gives a primitive.  An
    array is joined, which converts each element other than [null] and
    [undefined]. *)
Fixpoint ToString_raises (v : JSValue num) : bool :=
  match v with
  | JObj props =>
      match own_property "toString" props with
      | Some _ => true
      | None => false
      end
  | JArr items => existsb (fun x => if nullish x then false else ToString_raises x) items
  | _ => false
  end.

(** The template literal [`${v}`]; [None] is the [TypeError] of a
    conversion that raises. *)
Definition template_string (v : JSValue num) : option string :=
  if ToString_raises v then None else Some (ToString v).

(** ** Telemetry ([App.tsx]) *)

(** [d.long ?? d.short]: the right operand is read only when the left one
    is [null] or [undefined]. *)
Definition get_coalesce (d : JSValue num) (long short : string) : option (JSValue num) :=
  a ← get d long;
  if nullish a then get d short else Some a.

(** [normalizeTelemetry]: the object literal always has the six keys.
    [None] is the [TypeError] raised when [d] is [null] or [undefined]. *)
Definition normalizeTelemetry (d : JSValue num) : option (gmap string (JSValue num)) :=
  us ← get_coalesce d "us" "US";
  temp ← get_coalesce d "temp" "T";
  pressure ← get_coalesce d "pressure" "P";
  state ← get_coalesce d "state" "ST";
  p ← get d "pos";
  let pos := if Array_isArray p then p else JNull in
  dir ← get_coalesce d "dir" "DIR";
  Some (<["us" := us]> (<["temp" := temp]> (<["pressure" := pressure]>
       (<["state" := state]> (<["pos" := pos]> (<["dir" := dir]> ∅)))))).

(** The fields [normalizeTelemetry] reads under two names, long form
    first. *)
Definition short_forms : list (string * string) :=
  [("us", "US"); ("temp", "T"); ("pressure", "P"); ("state", "ST"); ("dir", "DIR")].

(** The initial snapshot of [useState<TelemetryData>]. *)
Definition initialTelemetry : gmap string (JSValue num) :=
  <["us" := JNull]> (<["temp" := JNull]> (<["pressure" := JNull]>
  (<["state" := JStr "---"]> (<["pos" := JNull]> (<["dir" := JStr "---"]> ∅))))).

(** The updater [prev => ({ ...prev, ...normalizeTelemetry(data) })]: the
    later spread wins on every key it owns. *)
Definition updateTelemetry (data : JSValue num) (prev : gmap string (JSValue num))
  : option (gmap string (JSValue num)) :=
  upd ← normalizeTelemetry data;
  Some (upd ∪ prev).

(** ** Log entries and the component state ([App.tsx]) *)

Inductive LogType := tx | rx | sys.

Record LogEntry := {
  id : string;
  timestamp : string;
  message : string;
  type : LogType
}.

(** The [useState] cells of [App] that the handlers write, and the
    number of log entries created so far (the position in the platform's
    id and clock samples). *)
Record AppState := {
  connected : bool;
  telemetry : gmap string (JSValue num);
  logs : list LogEntry;
  created : nat
}.

Definition initialState : AppState :=
  {| connected := false; telemetry := initialTelemetry; logs := []; created := 0 |}.

Definition setConnected (b : bool) (st : AppState) : AppState :=
  {| connected := b; telemetry := telemetry st; logs := logs st; created := created st |}.

(** [addLog]: [setLogs(prev => [entry, ...prev].slice(0, 100))]. *)
Definition addLog (type : LogType) (message : string) (st : AppState) : AppState :=
  let entry := {| id := Math_random_id (created st);
                  timestamp := Date_toLocaleTimeString (created st);
                  message := message;
                  type := type |} in
  {| connected := connected st;
     telemetry := telemetry st;
     logs := take 100 (entry :: logs st);
     created := S (created st) |}.

(** A sequence of insertions, each a category and a message. *)
Definition addLogs (lines : list (LogType * string)) (st : AppState) : AppState :=
  foldl (fun acc line => addLog line.1 line.2 acc) st lines.

(** Category and text of every entry of the log, newest first. *)
Definition log_lines (st : AppState) : list (LogType * string) :=
  map (fun e => (type e, message e)) (logs st).

(** The system entries of the log whose text contains [m]. *)
Definition system_entries_with (m : string) (st : AppState) : list LogEntry :=
  List.filter
    (fun e => match type e with sys => includes (message e) m | _ => false end)
    (logs st).

(** The category [api.onLog] derives from the text of the line. *)
Definition log_type_of (msg : string) : LogType :=
  if startsWith msg "TX" then tx else if startsWith msg "RX" then rx else sys.

(** The handler [App] installs as [api.onLog]. *)
Definition App_onLog (msg : string) (st : AppState) : AppState :=
  addLog (log_type_of msg) (strip_tag msg) st.

(** The handler [App] installs as [api.onTelemetry], for data on which
    the updater returns.  On [null] or [undefined] the updater raises
    while React renders, and React unmounts [App]: the cells are then
    gone, which this state cannot say; the function returns them as they
    were, and no property below is stated on that path. *)
Definition App_onTelemetry (data : JSValue num) (st : AppState) : AppState :=
  match updateTelemetry data (telemetry st) with
  | Some t => {| connected := connected st; telemetry := t; logs := logs st; created := created st |}
  | None => st
  end.

(** ** The session client ([services/api.ts]) *)

(** [window.location.hostname || '192.168.4.1']: the empty string is
    falsy. *)
Definition ROBOT_HOST : string :=
  match location_hostname with
  | EmptyString => "192.168.4.1"
  | host => host
  end.

Definition ROBOT_PORT : Z := 8765.

Definition HTTP_URL : string := "http://" ++ ROBOT_HOST ++ ":" ++ pretty ROBOT_PORT ++ "/cmd".
Definition WS_URL : string := "http://" ++ ROBOT_HOST ++ ":" ++ pretty ROBOT_PORT.

(** The socket.io client object: the options [connect] gives to [io], and
    the [connected] flag the library maintains. *)
Record Socket := {
  url : string;
  transports : list string;
  timeout : Z;
  reconnectionAttempts : Z;
  socket_connected : bool
}.

(** What the client puts on the network: [socket.emit(event, payload)] and
    [fetch(url, { method, headers, body })]. *)
Inductive Request :=
| Emit (event : string) (payload : JSValue num)
| Fetch (url : string) (method : string) (headers : list (string * string)) (body : JSValue num).

Section Client.

(** The state of whoever subscribes to the client. *)
Context {U : Type}.

(** The fields of [class RobotApi]: the socket and the four single-slot
    callbacks, [None] for [null]. *)
Record RobotApi := {
  socket : option Socket;
  onTelemetry : option (JSValue num -> U -> U);
  onLog : option (string -> U -> U);
  onAck : option (JSValue num -> U -> U);
  onConnectChange : option (bool -> U -> U)
}.

(** [new RobotApi()] *)
Definition newRobotApi : RobotApi :=
  {| socket := None; onTelemetry := None; onLog := None; onAck := None;
     onConnectChange := None |}.

(** The requests issued so far, oldest first, and the subscriber's state. *)
Record World := {
  wire : list Request;
  ui : U
}.

(** How a block of statements ends: normally, or by throwing [e]; either
    way in the state reached. *)
Inductive Outcome :=
| Returns (w : World)
| Throws (e : JSError) (w : World).

(** [cb?.(a)] *)
Definition notify {A : Type} (cb : option (A -> U -> U)) (a : A) (w : World) : World :=
  match cb with
  | Some f => {| wire := wire w; ui := f a (ui w) |}
  | None => w
  end.

Definition send (r : Request) (w : World) : World :=
  {| wire := (wire w ++ [r])%list; ui := ui w |}.

(** [private log(type, msg)]: [if (this.onLog) this.onLog(msg)]. *)
Definition log (api : RobotApi) (type msg : string) (w : World) : World :=
  notify (onLog api) msg w.

(** [try { body } catch (e) { handler }] *)
Definition try_catch (body : World -> Outcome) (handler : JSError -> World -> Outcome)
    (w : World) : Outcome :=
  match body w with
  | Returns w' => Returns w'
  | Throws e w' => handler e w'
  end.

(** [const x = await p; k] *)
Definition await {A : Type} (p : Awaited A) (k : A -> World -> Outcome) (w : World) : Outcome :=
  match p with
  | Fulfilled a => k a w
  | Rejected e => Throws e w
  end.

(** [connect()]: creates the socket; the four handlers it registers are
    [on_connect], [on_disconnect], [on_message] and [on_telemetry]. *)
Definition connect (api : RobotApi) : RobotApi :=
  {| socket := Some {| url := WS_URL; transports := ["websocket"]; timeout := 5000;
                       reconnectionAttempts := 10; socket_connected := false |};
     onTelemetry := onTelemetry api; onLog := onLog api; onAck := onAck api;
     onConnectChange := onConnectChange api |}.

Definition on_connect (api : RobotApi) (w : World) : World :=
  log api "SYS" "WebSocket Connected" (notify (onConnectChange api) true w).

Definition on_disconnect (api : RobotApi) (w : World) : World :=
  log api "SYS" "WebSocket Disconnected" (notify (onConnectChange api) false w).

(** The ['message'] handler from [if (obj.type === 'telemetry')] on;
    [None] is a [TypeError]: that of reading [obj.type] on [null] or
    [undefined], or that of the template literal of the ['log'] branch
    on data whose string conversion raises. *)
Definition on_message_object (api : RobotApi) (obj : JSValue num) (w : World) : option World :=
  ty ← get obj "type";
  if strict_eq_str ty "telemetry" then
    data ← get obj "data";
    Some (notify (onTelemetry api) data w)
  else if strict_eq_str ty "ack" then
    data ← get obj "data";
    Some (log api "RX" ("ACK: " ++ ToString (JSON_stringify data))
            (notify (onAck api) (JSON_stringify data) w))
  else if strict_eq_str ty "log" then
    data ← get obj "data";
    text ← template_string data;
    Some (log api "RX" ("LOG: " ++ text) w)
  else
    Some (log api "RX" ("MSG: " ++ ToString (JSON_stringify obj)) w).

(** The ['message'] handler. *)
Definition on_message (api : RobotApi) (payload : JSValue num) (w : World) : option World :=
  match payload with
  | JStr text =>
      match JSON_parse text with
      | Some obj => on_message_object api obj w
      | None => Some (log api "RX" text w)
      end
  | _ => on_message_object api payload w
  end.

(** The ['telemetry'] handler. *)
Definition on_telemetry (api : RobotApi) (t : JSValue num) (w : World) : World :=
  notify (onTelemetry api) t w.

(** [this.socket && this.socket.connected] *)
Definition socket_ready (api : RobotApi) : bool :=
  match socket api with
  | Some s => socket_connected s
  | None => false
  end.

(** [async sendCmd(cmd)]; [net] is how the [fetch] promise settles and,
    when it is fulfilled, how the response's [text()] promise does.
    [Returns] is the returned promise resolving, [Throws] its rejection. *)
Definition sendCmd (api : RobotApi) (cmd : string) (net : Awaited (Awaited string))
    (w : World) : Outcome :=
  if socket_ready api then
    Returns (log api "TX" ("WS: " ++ cmd) (send (Emit "cmd" (JObj [("cmd", JStr cmd)])) w))
  else
    try_catch
      (fun w0 =>
         let w1 := log api "TX" ("HTTP: " ++ cmd ++ " (Fallback)") w0 in
         let w2 := send (Fetch HTTP_URL "POST" [("Content-Type", "application/json")]
                           (JSON_stringify (JObj [("c", JStr cmd)]))) w1 in
         await net (fun res =>
         await res (fun text w3 =>
         Returns (log api "RX" ("HTTP Resp: " ++ text) w3))) w2)
      (fun e w' => Returns (log api "SYS" ("HTTP Send Failed: " ++ error_message e) w'))
      w.

(** The one request [sendCmd] issues on its fallback path. *)
Definition fallback_request (cmd : string) : Request :=
  Fetch HTTP_URL "POST" [("Content-Type", "application/json")]
    (JSON_stringify (JObj [("c", JStr cmd)])).

End Client.

Arguments RobotApi U : clear implicits.
Arguments World U : clear implicits.
Arguments Outcome U : clear implicits.

(** ** The wiring done by [App]'s mount effect *)

(** [api.onConnectChange = setConnected; api.onLog = ...;
    api.onTelemetry = ...; api.connect()]; [api.onAck] is left [null]. *)
Definition App_mount (api : RobotApi AppState) : RobotApi AppState :=
  connect {| socket := socket api;
             onTelemetry := Some App_onTelemetry;
             onLog := Some App_onLog;
             onAck := onAck api;
             onConnectChange := Some setConnected |}.

(** The client as the running dashboard has it, with the socket's
    [connected] flag as socket.io currently reports it. *)
Definition dashboard_api (online : bool) : RobotApi AppState :=
  let api := App_mount newRobotApi in
  {| socket := option_map (fun s => {| url := url s; transports := transports s;
                                        timeout := timeout s;
                                        reconnectionAttempts := reconnectionAttempts s;
                                        socket_connected := online |}) (socket api);
     onTelemetry := onTelemetry api; onLog := onLog api; onAck := onAck api;
     onConnectChange := onConnectChange api |}.

Definition initialWorld : World AppState := {| wire := []; ui := initialState |}.

(** ** A subscriber that records every callback it receives *)

Inductive Notification :=
| TelemetryReceived (data : JSValue num)
| LogLine (msg : string)
| AckReceived (msg : JSValue num)
| ConnectChanged (b : bool).

Definition recorder (s : option Socket) : RobotApi (list Notification) :=
  {| socket := s;
     onTelemetry := Some (fun d seen => (seen ++ [TelemetryReceived d])%list);
     onLog := Some (fun m seen => (seen ++ [LogLine m])%list);
     onAck := Some (fun m seen => (seen ++ [AckReceived m])%list);
     onConnectChange := Some (fun b seen => (seen ++ [ConnectChanged b])%list) |}.

End Model.

Arguments AppState num : clear implicits.
Arguments Request num : clear implicits.
Arguments Notification num : clear implicits.
Arguments RobotApi num U : clear implicits.
Arguments World num U : clear implicits.
Arguments Outcome num U : clear implicits.

(** ** A sample platform

    Numbers are integers printed in decimal; the parser knows the three
    keyword literals of JSON and rejects every other text; the printer
    renders values that hold no [undefined], without escaping strings. *)

Definition sample_parse (text : string) : option (JSValue Z) :=
  if String.eqb text "null" then Some JNull
  else if String.eqb text "true" then Some (JBool true)
  else if String.eqb text "false" then Some (JBool false)
  else None.

Definition double_quote : ascii := ascii_of_nat 34.

Definition quoted (s : string) : string :=
  String double_quote (s ++ String double_quote EmptyString).

Fixpoint sample_render (v : JSValue Z) : string :=
  match v with
  | JUndefined | JNull => "null"
  | JBool true => "true"
  | JBool false => "false"
  | JNum n => pretty n
  | JStr s => quoted s
  | JArr items => "[" ++ String.concat "," (map sample_render items) ++ "]"
  | JObj props =>
      "{" ++ String.concat ","
               (map (fun '(k, x) => quoted k ++ ":" ++ sample_render x) props) ++ "}"
  end.

Definition sample_stringify (v : JSValue Z) : JSValue Z :=
  match v with
  | JUndefined => JUndefined
  | _ => JStr (sample_render v)
  end.

(** A log that holds a hundred entries. *)
Definition hundred_ticks : list (LogType * string) := replicate 100 (sys, "tick").

Definition sample_platform : Platform Z :=
  {| Number_toString := pretty;
     JSON_parse := sample_parse;
     JSON_stringify := sample_stringify;
     location_hostname := "";
     Math_random_id := fun n => "id" ++ pretty n;
     Date_toLocaleTimeString := fun n => "12:00:" ++ pretty n |}.


(** ** Sequences of events

    The handlers above, run over the events of a session in the order of
    their arrival. *)

Section Sessions.

Context {num : Type} `{Platform num}.

(** The six keys of a telemetry snapshot. *)
Definition telemetry_keys : gset string :=
  {[ "us"; "temp"; "pressure"; "state"; "pos"; "dir" ]}.

(** The updater of [api.onTelemetry] applied along a sequence of
    telemetry data, each time to the snapshot the previous application
    returned; [None] as soon as one application raises. *)
Fixpoint updateTelemetry_all (ds : list (JSValue num)) (snap : gmap string (JSValue num))
  : option (gmap string (JSValue num)) :=
  match ds with
  | [] => Some snap
  | d :: rest =>
      next ← updateTelemetry d snap;
      updateTelemetry_all rest next
  end.

(** The object the ['message'] handler goes on to classify: the payload,
    or what its text parses to; [None] when the text does not parse. *)
Definition decoded (payload : JSValue num) : option (JSValue num) :=
  match payload with
  | JStr text => JSON_parse text
  | _ => Some payload
  end.

(** Whether the ['message'] handler takes its telemetry branch on the
    payload. *)
Definition telemetry_message (payload : JSValue num) : bool :=
  match decoded payload with
  | Some obj =>
      match get obj "type" with
      | Some ty => strict_eq_str ty "telemetry"
      | None => false
      end
  | None => false
  end.

(** The ['connect'] ([true]) and ['disconnect'] ([false]) events of the
    socket, in order. *)
Definition channel_events {U : Type} (api : RobotApi num U) (events : list bool)
    (w : World num U) : World num U :=
  foldl (fun acc up => if up : bool then on_connect api acc else on_disconnect api acc)
    w events.

(** The lines [sendCmd] hands to [log], in order: on the socket, or on
    the fallback path with the way its request settled. *)
Definition sendCmd_lines (ready : bool) (cmd : string) (net : Awaited (Awaited string))
  : list string :=
  if ready then ["WS: " ++ cmd]
  else ["HTTP: " ++ cmd ++ " (Fallback)";
        match net with
        | Fulfilled (Fulfilled text) => "HTTP Resp: " ++ text
        | Fulfilled (Rejected e) | Rejected e => "HTTP Send Failed: " ++ error_message e
        end].

End Sessions.

(** ** The controls of [App] (second version of [App.tsx])

    [commitSpeed], [toggleRoller], [startHold], [stopHold] and the
    [handleSubmit] of [SpeedControlInput].  Each calls
    [send = cmd => api.sendCmd(cmd)] without awaiting it; a handler is
    modelled by the state it leaves and the commands it sends, in the
    order of the calls. *)

(** A JavaScript number as [Math.floor] receives it: [NaN], an infinity,
    or a finite value, given exactly as a rational (every double is one;
    nothing here tells [-0] from [0]). *)
Inductive Number :=
| NaN
| NegInfinity
| PosInfinity
| Finite (q : QArith_base.Q).

(** An integer-valued number, what [Math.floor] and [parseInt] return. *)
Inductive Integral :=
| INaN
| INegInfinity
| IPosInfinity
| IInt (z : Z).

Definition to_number (x : Integral) : Number :=
  match x with
  | INaN => NaN
  | INegInfinity => NegInfinity
  | IPosInfinity => PosInfinity
  | IInt z => Finite (QArith_base.inject_Z z)
  end.

Definition Math_floor (x : Number) : Integral :=
  match x with
  | NaN => INaN
  | NegInfinity => INegInfinity
  | PosInfinity => IPosInfinity
  | Finite q => IInt (Qround.Qfloor q)
  end.

Definition Math_max (a b : Integral) : Integral :=
  match a, b with
  | INaN, _ | _, INaN => INaN
  | IPosInfinity, _ | _, IPosInfinity => IPosInfinity
  | INegInfinity, x | x, INegInfinity => x
  | IInt x, IInt y => IInt (Z.max x y)
  end.

Definition Math_min (a b : Integral) : Integral :=
  match a, b with
  | INaN, _ | _, INaN => INaN
  | INegInfinity, _ | _, INegInfinity => INegInfinity
  | IPosInfinity, x | x, IPosInfinity => x
  | IInt x, IInt y => IInt (Z.min x y)
  end.

Definition isNaN (x : Integral) : bool :=
  match x with
  | INaN => true
  | _ => false
  end.

(** [a < b]; a comparison with [NaN] is false. *)
Definition less (a b : Integral) : bool :=
  match a, b with
  | INaN, _ | _, INaN => false
  | INegInfinity, INegInfinity => false
  | INegInfinity, _ => true
  | _, INegInfinity => false
  | IPosInfinity, _ => false
  | _, IPosInfinity => true
  | IInt x, IInt y => (x <? y)%Z
  end.

(** [x.toString()] and [`${x}`] on an integer-valued number: decimal
    digits, for the integers below 10^21 in absolute value (beyond,
    JavaScript prints an exponent; no number printed here gets there). *)
Definition Integral_toString (x : Integral) : string :=
  match x with
  | INaN => "NaN"
  | INegInfinity => "-Infinity"
  | IPosInfinity => "Infinity"
  | IInt z => pretty z
  end.

Inductive SpeedKind := LSPD | RSPD | ROLLERSPD.

Definition SpeedKind_name (k : SpeedKind) : string :=
  match k with
  | LSPD => "LSPD"
  | RSPD => "RSPD"
  | ROLLERSPD => "ROLLERSPD"
  end.

(** The [useState] cells of the controls. *)
Record Controls := {
  rollerOn : bool;
  driveSpeed : Integral;
  rollerSpeed : Integral
}.

Definition initialControls : Controls :=
  {| rollerOn := false; driveSpeed := IInt 140; rollerSpeed := IInt 140 |}.

(** [commitSpeed(type, val)] *)
Definition commitSpeed (type : SpeedKind) (val : Number) (c : Controls)
  : Controls * list string :=
  let safeVal := Math_min (IInt 255) (Math_max (IInt 0) (Math_floor val)) in
  match type with
  | ROLLERSPD =>
      ({| rollerOn := rollerOn c; driveSpeed := driveSpeed c; rollerSpeed := safeVal |},
       [SpeedKind_name type ++ " " ++ Integral_toString safeVal])
  | _ =>
      ({| rollerOn := rollerOn c; driveSpeed := safeVal; rollerSpeed := rollerSpeed c |},
       ["LSPD " ++ Integral_toString safeVal; "RSPD " ++ Integral_toString safeVal])
  end.

(** [toggleRoller()], with [Command.ROLLER_ON] and [Command.ROLLER_OFF]. *)
Definition toggleRoller (c : Controls) : Controls * list string :=
  let newState := negb (rollerOn c) in
  ({| rollerOn := newState; driveSpeed := driveSpeed c; rollerSpeed := rollerSpeed c |},
   [if newState then "ROLLER ON" else "ROLLER OFF"]).

(** The [handleSubmit] of [SpeedControlInput], given the platform's
    [parseInt]: the new text of the input and the value handed to
    [onCommit]. *)
Definition handleSubmit (parseInt : string -> Integral) (localVal : string)
  : string * Integral :=
  let v := parseInt localVal in
  let v := if isNaN v then IInt 0 else v in
  let v := if less v (IInt 0) then IInt 0 else v in
  let v := if less (IInt 255) v then IInt 255 else v in
  (Integral_toString v, v).

(** The hold-to-move timer: the [holdInterval] ref, the repeating timers
    of the window that are active (timer id to the command its callback
    sends every 250 ms), and the number of timers the window has created
    (ids are positive and grow). *)
Record Hold := {
  holdInterval : option nat;
  intervals : gmap nat string;
  timers_created : nat
}.

Definition initialHold : Hold :=
  {| holdInterval := None; intervals := ∅; timers_created := 0 |}.

(** [clearInterval(id)] *)
Definition clearInterval (id : nat) (h : Hold) : Hold :=
  {| holdInterval := holdInterval h; intervals := delete id (intervals h);
     timers_created := timers_created h |}.

(** [window.setInterval(() => send(cmd), 250)], and the id it returns. *)
Definition setInterval (cmd : string) (h : Hold) : nat * Hold :=
  let id := S (timers_created h) in
  (id, {| holdInterval := holdInterval h; intervals := <[id := cmd]> (intervals h);
          timers_created := id |}).

(** The test [if (holdInterval.current)]: neither [null] nor [0]. *)
Definition current_timer (h : Hold) : option nat :=
  match holdInterval h with
  | Some (S n) => Some (S n)
  | _ => None
  end.

(** [startHold(cmd)] *)
Definition startHold (cmd : string) (h : Hold) : Hold * list string :=
  let h1 := match current_timer h with
            | Some id => clearInterval id h
            | None => h
            end in
  let (id, h2) := setInterval cmd h1 in
  ({| holdInterval := Some id; intervals := intervals h2;
      timers_created := timers_created h2 |},
   [cmd]).

(** [stopHold()] *)
Definition stopHold (h : Hold) : Hold :=
  match current_timer h with
  | Some id =>
      let h1 := clearInterval id h in
      {| holdInterval := None; intervals := intervals h1;
         timers_created := timers_created h1 |}
  | None => h
  end.

(** What is sent when the active timers fire once. *)
Definition interval_fires (h : Hold) : list string :=
  (map_to_list (intervals h)).*2.

(** The pointer events of the direction buttons: [onPointerDown] calls
    [startHold] with the button's command, [onPointerUp] and
    [onPointerLeave] call [stopHold]. *)
Inductive Pointer :=
| PointerDown (cmd : string)
| PointerUp.

Definition pointer_event (e : Pointer) (h : Hold) : Hold :=
  match e with
  | PointerDown cmd => (startHold cmd h).1
  | PointerUp => stopHold h
  end.

Definition pointer_events (events : list Pointer) (h : Hold) : Hold :=
  foldl (fun acc e => pointer_event e acc) h events.

(** * Properties *)

Section Properties.

Context {num : Type} `{Platform num}.

(** ** Telemetry *)

Lemma get_nullish (d : JSValue num) (k : string) :
  get d k = None <-> nullish d = true.
Proof. destruct d; simpl; split; congruence. Qed.

Lemma get_coalesce_value (d a : JSValue num) (long short : string) :
  get d long = Some a ->
  get_coalesce d long short = if nullish a then get d short else Some a.
Proof. intros Ha. unfold get_coalesce. rewrite Ha. reflexivity. Qed.

(** What [normalizeTelemetry] returns is the six-key literal built from
    its six reads. *)
Lemma normalizeTelemetry_inv (d : JSValue num) (upd : gmap string (JSValue num)) :
  normalizeTelemetry d = Some upd ->
  exists us temp pressure state p dir,
    get_coalesce d "us" "US" = Some us /\
    get_coalesce d "temp" "T" = Some temp /\
    get_coalesce d "pressure" "P" = Some pressure /\
    get_coalesce d "state" "ST" = Some state /\
    get d "pos" = Some p /\
    get_coalesce d "dir" "DIR" = Some dir /\
    upd = <["us" := us]> (<["temp" := temp]> (<["pressure" := pressure]>
          (<["state" := state]>
          (<["pos" := if Array_isArray p then p else JNull]> (<["dir" := dir]> ∅))))).
Proof.
  unfold normalizeTelemetry. intros Hn.
  destruct (get_coalesce d "us" "US") as [us|]; [|discriminate].
  destruct (get_coalesce d "temp" "T") as [temp|]; [|discriminate].
  destruct (get_coalesce d "pressure" "P") as [pressure|]; [|discriminate].
  destruct (get_coalesce d "state" "ST") as [state|]; [|discriminate].
  destruct (get d "pos") as [p|]; [|discriminate].
  destruct (get_coalesce d "dir" "DIR") as [dir|]; [|discriminate].
  simpl in Hn. injection Hn as <-.
  exists us, temp, pressure, state, p, dir. repeat split; reflexivity.
Qed.

(** Normalisation succeeds on everything but [null] and [undefined]. *)
Lemma normalizeTelemetry_total (d : JSValue num) :
  nullish d = false -> is_Some (normalizeTelemetry d).
Proof.
  intros Hd. unfold normalizeTelemetry, get_coalesce.
  destruct d; try discriminate; simpl;
    repeat match goal with
           | |- context [nullish ?v] => destruct (nullish v); simpl
           end; eauto.
Qed.

(** The six keys of a normalised update, each with the read it holds. *)
Lemma normalizeTelemetry_lookup (d : JSValue num) (upd : gmap string (JSValue num)) :
  normalizeTelemetry d = Some upd ->
  upd !! "us" = get_coalesce d "us" "US" /\
  upd !! "temp" = get_coalesce d "temp" "T" /\
  upd !! "pressure" = get_coalesce d "pressure" "P" /\
  upd !! "state" = get_coalesce d "state" "ST" /\
  upd !! "pos" = (p ← get d "pos"; Some (if Array_isArray p then p else JNull)) /\
  upd !! "dir" = get_coalesce d "dir" "DIR".
Proof.
  intros Hn. apply normalizeTelemetry_inv in Hn.
  destruct Hn as (us & temp & pressure & state & p & dir & -> & -> & -> & -> & -> & -> & ->).
  repeat split; reflexivity.
Qed.

(** Every one of the six fields of the new snapshot is the normalised
    read, whatever the previous snapshot held. *)
Lemma updateTelemetry_lookup (d : JSValue num) (prev snap : gmap string (JSValue num)) :
  updateTelemetry d prev = Some snap ->
  snap !! "us" = get_coalesce d "us" "US" /\
  snap !! "temp" = get_coalesce d "temp" "T" /\
  snap !! "pressure" = get_coalesce d "pressure" "P" /\
  snap !! "state" = get_coalesce d "state" "ST" /\
  snap !! "pos" = (p ← get d "pos"; Some (if Array_isArray p then p else JNull)) /\
  snap !! "dir" = get_coalesce d "dir" "DIR".
Proof.
  unfold updateTelemetry. intros Hu.
  destruct (normalizeTelemetry d) as [upd|] eqn:Hn; [|discriminate].
  simpl in Hu. injection Hu as <-.
  apply normalizeTelemetry_inv in Hn.
  destruct Hn as (us & temp & pressure & state & p & dir & -> & -> & -> & -> & -> & -> & ->).
  repeat split; apply lookup_union_Some_l; reflexivity.
Qed.

(** A field the update holds under neither name reads [undefined] in the
    new snapshot. *)
Lemma updateTelemetry_absent_field (d : JSValue num) (prev snap : gmap string (JSValue num))
    (long short : string) :
  (long, short) ∈ short_forms ->
  get d long = Some JUndefined ->
  get d short = Some JUndefined ->
  updateTelemetry d prev = Some snap ->
  snap !! long = Some JUndefined.
Proof.
  intros Hin Hl Hs Hu.
  apply updateTelemetry_lookup in Hu.
  destruct Hu as (Hus & Htemp & Hpressure & Hstate & _ & Hdir).
  unfold short_forms in Hin.
  repeat (apply elem_of_cons in Hin as [Heq | Hin];
          [injection Heq as -> ->;
           rewrite (get_coalesce_value _ _ _ _ Hl), Hs in *; simpl in *; assumption |]).
  apply elem_of_nil in Hin. contradiction.
Qed.

(** C1 (defect of the code): a field that is absent from the incoming
    update does not keep its previous value.  The first update
    [{us: n}] applied to the initial snapshot stores [n] under [us], and
    the field [state], which the update holds under neither [state] nor
    [ST] and which was ["---"], is [undefined] afterwards; that snapshot
    is what the [api.onTelemetry] handler commits. *)
Theorem telemetry_absent_field_overwritten (n : num) :
  exists snap : gmap string (JSValue num),
    updateTelemetry (JObj [("us", JNum n)]) initialTelemetry = Some snap /\
    get (JObj [("us", JNum n)]) "state" = Some JUndefined /\
    get (JObj [("us", JNum n)]) "ST" = Some JUndefined /\
    snap !! "us" = Some (JNum n) /\
    (initialTelemetry (num := num)) !! "state" = Some (JStr "---") /\
    snap !! "state" = Some JUndefined /\
    telemetry (App_onTelemetry (JObj [("us", JNum n)]) initialState) = snap.
Proof.
  eexists. split; [reflexivity |]. repeat split; reflexivity.
Qed.

(** The normalised [pos] is [null] exactly when the position read from
    the data is not an array; an array is kept as it is, whatever its
    length. *)
Theorem pos_kept_iff_array (d p : JSValue num) (upd : gmap string (JSValue num)) :
  normalizeTelemetry d = Some upd ->
  get d "pos" = Some p ->
  upd !! "pos" = Some (if Array_isArray p then p else JNull).
Proof.
  intros Hn Hp. apply normalizeTelemetry_lookup in Hn.
  destruct Hn as (_ & _ & _ & _ & Hpos & _).
  rewrite Hpos, Hp. reflexivity.
Qed.

(** C4 (as the code has it): for each of the five fields read under two
    names, the normalised value is the long-form value unless that value
    is [null] or [undefined], and the short-form value then. *)
Theorem long_form_preferred_unless_nullish (d a b : JSValue num)
    (upd : gmap string (JSValue num)) (long short : string) :
  (long, short) ∈ short_forms ->
  get d long = Some a ->
  get d short = Some b ->
  normalizeTelemetry d = Some upd ->
  upd !! long = Some (if nullish a then b else a).
Proof.
  intros Hin Hl Hs Hn.
  apply normalizeTelemetry_lookup in Hn.
  destruct Hn as (Hus & Htemp & Hpressure & Hstate & _ & Hdir).
  unfold short_forms in Hin.
  repeat (apply elem_of_cons in Hin as [Heq | Hin];
          [injection Heq as -> ->;
           rewrite (get_coalesce_value _ _ _ _ Hl), Hs in *;
           destruct (nullish a); assumption |]).
  apply elem_of_nil in Hin. contradiction.
Qed.

(** ** The log *)

Lemma addLog_logs (ty : LogType) (msg : string) (st : AppState num) :
  logs (addLog ty msg st) =
  take 100 ({| id := Math_random_id (created st);
               timestamp := Date_toLocaleTimeString (created st);
               message := msg;
               type := ty |} :: logs st).
Proof. reflexivity. Qed.

Lemma addLog_length (ty : LogType) (msg : string) (st : AppState num) :
  length (logs (addLog ty msg st)) <= 100.
Proof. rewrite addLog_logs, length_take. lia. Qed.

Lemma addLogs_length (lines : list (LogType * string)) (st : AppState num) :
  length (logs st) <= 100 -> length (logs (addLogs lines st)) <= 100.
Proof.
  revert st. induction lines as [|[ty msg] lines IH]; intros st Hst; simpl.
  - exact Hst.
  - apply IH, addLog_length.
Qed.

(** A list of a hundred elements is its first ninety-nine and its last. *)
Lemma full_log_split {A : Type} (l : list A) :
  length l = 100 -> exists oldest, l = (take 99 l ++ [oldest])%list.
Proof.
  intros Hl.
  destruct (drop 99 l) as [|x [|y rest]] eqn:Hd.
  - apply (f_equal length) in Hd. rewrite length_drop, Hl in Hd. discriminate.
  - exists x. rewrite <- Hd. symmetry. apply take_drop.
  - apply (f_equal length) in Hd. rewrite length_drop, Hl in Hd. discriminate.
Qed.

(** C5: whatever the sequence of insertions, the log never holds more
    than 100 entries; and an insertion into a log of 100 entries drops
    exactly its last (oldest) entry and puts the new entry in front of the
    other 99, which keep their order. *)
Theorem log_bounded_and_evicts_oldest :
  (forall lines : list (LogType * string),
      length (logs (addLogs lines (initialState (num := num)))) <= 100) /\
  (forall (ty : LogType) (msg : string) (st : AppState num),
      length (logs st) = 100 ->
      exists kept oldest,
        logs st = (kept ++ [oldest])%list /\
        length kept = 99 /\
        logs (addLog ty msg st) =
          {| id := Math_random_id (created st);
             timestamp := Date_toLocaleTimeString (created st);
             message := msg;
             type := ty |} :: kept).
Proof.
  split.
  - intros lines. apply addLogs_length. simpl. lia.
  - intros ty msg st Hfull.
    destruct (full_log_split (logs st) Hfull) as [oldest Hsplit].
    exists (take 99 (logs st)), oldest. split; [exact Hsplit |]. split.
    + rewrite length_take. lia.
    + rewrite addLog_logs. reflexivity.
Qed.

(** The category the dashboard gives a line without [TX] or [RX] in
    front. *)
Lemma log_type_of_untagged (msg : string) :
  startsWith msg "TX" = false -> startsWith msg "RX" = false -> log_type_of msg = sys.
Proof. intros Htx Hrx. unfold log_type_of. rewrite Htx, Hrx. reflexivity. Qed.

(** C10: the client's [log] ignores its [type] argument; the entry the
    dashboard records for a line has the category read off the line's own
    text ([TX] in front, else [RX] in front, else system), so a line
    logged with type ['RX'] or ['TX'] whose text has neither in front is
    recorded as a system entry. *)
Theorem log_type_argument_discarded :
  (forall (U : Type) (api : RobotApi num U) (ty ty' msg : string) (w : World num U),
      log api ty msg w = log api ty' msg w) /\
  (forall (online : bool) (ty msg : string) (w : World num (AppState num)),
      logs (ui (log (dashboard_api online) ty msg w)) =
        take 100 ({| id := Math_random_id (created (ui w));
                     timestamp := Date_toLocaleTimeString (created (ui w));
                     message := strip_tag msg;
                     type := if startsWith msg "TX" then tx
                             else if startsWith msg "RX" then rx else sys |}
                    :: logs (ui w))) /\
  (forall (online : bool) (ty msg : string) (w : World num (AppState num)),
      startsWith msg "TX" = false ->
      startsWith msg "RX" = false ->
      exists e,
        head (logs (ui (log (dashboard_api online) ty msg w))) = Some e /\
        type e = sys /\ message e = strip_tag msg).
Proof.
  split; [reflexivity |]. split; [reflexivity |].
  intros online ty msg w Htx Hrx.
  eexists. split; [reflexivity |]. simpl. split; [| reflexivity].
  apply log_type_of_untagged; assumption.
Qed.

(** ** The session client *)

Section AnySubscriber.

Context {U : Type}.

(** A payload whose [type] reads as a string is an object. *)
Lemma typed_payload_is_object (P : JSValue num) (t : string) :
  get P "type" = Some (JStr t) ->
  exists props, P = JObj props.
Proof. destruct P; simpl; intros Ht; try discriminate. eauto. Qed.

Lemma on_message_structured (api : RobotApi num U) (P : JSValue num) (t : string)
    (w : World num U) :
  get P "type" = Some (JStr t) ->
  on_message api P w = on_message_object api P w.
Proof.
  intros Ht. destruct (typed_payload_is_object P t Ht) as [props ->]. reflexivity.
Qed.

Lemma on_message_parsed (api : RobotApi num U) (text : string) (P : JSValue num)
    (w : World num U) :
  JSON_parse text = Some P ->
  on_message api (JStr text) w = on_message_object api P w.
Proof. intros Hp. simpl. rewrite Hp. reflexivity. Qed.

(** Text that does not parse is handed to [log] as it is, and the
    handler returns. *)
Lemma on_message_unparseable (api : RobotApi num U) (text : string) (w : World num U) :
  JSON_parse text = None ->
  on_message api (JStr text) w = Some (log api "RX" text w).
Proof. intros Hp. simpl. rewrite Hp. reflexivity. Qed.

Lemma on_message_object_telemetry (api : RobotApi num U) (P data : JSValue num)
    (w : World num U) :
  get P "type" = Some (JStr "telemetry") ->
  get P "data" = Some data ->
  on_message_object api P w = Some (notify (onTelemetry api) data w).
Proof.
  intros Ht Hd. unfold on_message_object. rewrite Ht. simpl. rewrite Hd. reflexivity.
Qed.

Lemma on_message_object_ack (api : RobotApi num U) (P data : JSValue num)
    (w : World num U) :
  get P "type" = Some (JStr "ack") ->
  get P "data" = Some data ->
  on_message_object api P w =
    Some (log api "RX" ("ACK: " ++ ToString (JSON_stringify data))
            (notify (onAck api) (JSON_stringify data) w)).
Proof.
  intros Ht Hd. unfold on_message_object. rewrite Ht. simpl. rewrite Hd. reflexivity.
Qed.

(** [sendCmd] on the persistent channel. *)
Lemma sendCmd_socket (api : RobotApi num U) (cmd : string) (net : Awaited (Awaited string))
    (w : World num U) :
  socket_ready api = true ->
  sendCmd api cmd net w =
    Returns (log api "TX" ("WS: " ++ cmd) (send (Emit "cmd" (JObj [("cmd", JStr cmd)])) w)).
Proof. intros Hr. unfold sendCmd. rewrite Hr. reflexivity. Qed.

(** [sendCmd] on the fallback path, when the response arrives. *)
Lemma sendCmd_fallback_response (api : RobotApi num U) (cmd text : string) (w : World num U) :
  socket_ready api = false ->
  sendCmd api cmd (Fulfilled (Fulfilled text)) w =
    Returns (log api "RX" ("HTTP Resp: " ++ text)
               (send (fallback_request cmd)
                  (log api "TX" ("HTTP: " ++ cmd ++ " (Fallback)") w))).
Proof. intros Hr. unfold sendCmd. rewrite Hr. reflexivity. Qed.



(** C2: a payload [P] whose [type] is ["telemetry"] makes the ['message']
    handler do exactly what the ['telemetry'] handler does on [P.data],
    whether [P] arrives structured or as text that parses to it; and that
    is one call of the registered telemetry callback on [P.data]. *)
Theorem telemetry_paths_agree (api : RobotApi num U) (P : JSValue num) (w : World num U) :
  get P "type" = Some (JStr "telemetry") ->
  exists data,
    get P "data" = Some data /\
    on_message api P w = Some (on_telemetry api data w) /\
    (forall text, JSON_parse text = Some P ->
                  on_message api (JStr text) w = Some (on_telemetry api data w)) /\
    (forall f, onTelemetry api = Some f ->
               on_telemetry api data w = {| wire := wire w; ui := f data (ui w) |}) /\
    (onTelemetry api = None -> on_telemetry api data w = w).
Proof.
  intros Ht.
  destruct (typed_payload_is_object P _ Ht) as [props ->].
  exists (default JUndefined (own_property "data" props)).
  split; [reflexivity |].
  assert (Hobj : on_message_object api (JObj props) w =
                 Some (on_telemetry api (default JUndefined (own_property "data" props)) w)).
  { apply on_message_object_telemetry; [exact Ht | reflexivity]. }
  split; [exact Hobj |]. split.
  - intros text Hp. rewrite (on_message_parsed _ _ _ _ Hp). exact Hobj.
  - unfold on_telemetry, notify. split.
    + intros f ->. reflexivity.
    + intros ->. reflexivity.
Qed.

End AnySubscriber.

(** What the recording subscriber has seen after a handler ran. *)
Lemma recorder_log (s : option Socket) (ty msg : string)
    (w : World num (list (Notification num))) :
  log (recorder s) ty msg w = {| wire := wire w; ui := (ui w ++ [LogLine msg])%list |}.
Proof. reflexivity. Qed.

(** C6 (defect of the code): with the socket disconnected,
    [sendCmd("STOP")] answered by the text ["OK"] issues the one request
    with body [JSON.stringify({c: "STOP"})] and adds two log entries,
    ["HTTP: STOP (Fallback)"] and ["HTTP Resp: OK"]; the dashboard
    records both as system entries, neither as outbound nor as inbound. *)
Theorem fallback_STOP_logged_as_system :
  exists w : World num (AppState num),
    sendCmd (dashboard_api false) "STOP" (Fulfilled (Fulfilled "OK")) initialWorld = Returns w /\
    wire w = [Fetch HTTP_URL "POST" [("Content-Type", "application/json")]
                (JSON_stringify (JObj [("c", JStr "STOP")]))] /\
    log_lines (ui w) = [(sys, "HTTP Resp: OK"); (sys, "HTTP: STOP (Fallback)")].
Proof.
  eexists. split; [reflexivity |]. split; reflexivity.
Qed.

(** The line of the attempt is filed as a system entry too.  When a
    command contains the message of the failure, as in
    [sendCmd("timeout")] failing with ["timeout"], two system entries of
    the log contain that message. *)
Theorem fallback_failure_two_system_entries :
  exists w : World num (AppState num),
    sendCmd (dashboard_api false) "timeout" (Rejected (Error "timeout")) initialWorld
      = Returns w /\
    log_lines (ui w) =
      [(sys, "HTTP Send Failed: timeout"); (sys, "HTTP: timeout (Fallback)")] /\
    length (system_entries_with "timeout" (ui w)) = 2.
Proof.
  eexists. split; [reflexivity |]. split; reflexivity.
Qed.

(** C8 (defect of the code): the text ["not json{"], which does not
    parse, reaches the log callback once, as it is, and no other callback;
    but the entry the dashboard records for it is a system entry, not an
    inbound one. *)
Theorem unparseable_text_logged_as_system (online : bool) (s : option Socket) :
  JSON_parse "not json{" = None ->
  on_message (recorder s) (JStr "not json{") {| wire := []; ui := [] |}
    = Some {| wire := []; ui := [LogLine "not json{"] |} /\
  (log_lines ∘ ui) <$> on_message (dashboard_api online) (JStr "not json{") initialWorld
    = Some [(sys, "not json{")].
Proof.
  intros Hp. rewrite !on_message_unparseable by exact Hp. split; reflexivity.
Qed.

(** C9 (defect of the code): on the payload [{type: "ack", data: D}] the
    acknowledgement callback receives [JSON.stringify(D)] and the log
    callback then receives one line, ["ACK: "] followed by that rendering;
    but the entry the dashboard records for the line is a system entry,
    not an inbound one. *)
Theorem ack_logged_as_system (online : bool) (s : option Socket) (D : JSValue num) :
  on_message (recorder s) (JObj [("type", JStr "ack"); ("data", D)]) {| wire := []; ui := [] |}
    = Some {| wire := [];
              ui := [AckReceived (JSON_stringify D);
                     LogLine ("ACK: " ++ ToString (JSON_stringify D))] |} /\
  (log_lines ∘ ui) <$>
    on_message (dashboard_api online) (JObj [("type", JStr "ack"); ("data", D)]) initialWorld
    = Some [(sys, "ACK: " ++ ToString (JSON_stringify D))].
Proof.
  split; reflexivity.
Qed.

End Properties.

(** * Further properties of the code *)

Section Sessions_properties.

Context {num : Type} `{Platform num}.

(** ** Telemetry *)

(** [normalizeTelemetry] raises exactly on [null] and [undefined]: every
    other value, an object or not, is normalised. *)
Theorem normalizeTelemetry_raises_iff_nullish (d : JSValue num) :
  normalizeTelemetry d = None <-> nullish d = true.
Proof.
  split.
  - intros Hn. destruct (nullish d) eqn:Hd; [reflexivity |].
    destruct (normalizeTelemetry_total d Hd) as [upd Hupd]. congruence.
  - intros Hd. destruct d; try discriminate; reflexivity.
Qed.

Lemma normalizeTelemetry_dom (d : JSValue num) (upd : gmap string (JSValue num)) :
  normalizeTelemetry d = Some upd -> dom upd = telemetry_keys.
Proof.
  intros Hn. apply normalizeTelemetry_inv in Hn.
  destruct Hn as (us & temp & pressure & state & p & dir & _ & _ & _ & _ & _ & _ & ->).
  rewrite !dom_insert_L, dom_empty_L. unfold telemetry_keys. set_solver.
Qed.

Lemma normalizeTelemetry_pos (d : JSValue num) (upd : gmap string (JSValue num)) :
  normalizeTelemetry d = Some upd ->
  upd !! "pos" = Some JNull \/ exists items, upd !! "pos" = Some (JArr items).
Proof.
  intros Hn. apply normalizeTelemetry_inv in Hn.
  destruct Hn as (us & temp & pressure & state & p & dir & _ & _ & _ & _ & _ & _ & ->).
  destruct p; simpl; eauto.
Qed.

(** An update over a snapshot that has no other key than the six leaves
    nothing of it. *)
Lemma update_absorbs (upd prev : gmap string (JSValue num)) :
  dom upd = telemetry_keys -> dom prev = telemetry_keys -> upd ∪ prev = upd.
Proof.
  intros Hu Hp. apply map_eq. intros k.
  destruct (upd !! k) as [v|] eqn:Hk.
  - apply lookup_union_Some_l. exact Hk.
  - apply lookup_union_None. split; [exact Hk |].
    apply not_elem_of_dom. rewrite Hp, <- Hu. apply not_elem_of_dom. exact Hk.
Qed.

Lemma initialState_keys : dom (telemetry (initialState (num := num))) = telemetry_keys.
Proof.
  simpl. unfold initialTelemetry.
  rewrite !dom_insert_L, dom_empty_L. unfold telemetry_keys. set_solver.
Qed.

Lemma updateTelemetry_shape (d : JSValue num) (prev snap : gmap string (JSValue num)) :
  dom prev = telemetry_keys ->
  updateTelemetry d prev = Some snap ->
  dom snap = telemetry_keys /\
  (snap !! "pos" = Some JNull \/ exists items, snap !! "pos" = Some (JArr items)).
Proof.
  intros Hprev Hu. unfold updateTelemetry in Hu.
  destruct (normalizeTelemetry d) as [upd|] eqn:Hn; [| discriminate].
  simpl in Hu. injection Hu as <-. split.
  - rewrite dom_union_L, (normalizeTelemetry_dom _ _ Hn), Hprev. set_solver.
  - destruct (normalizeTelemetry_pos _ _ Hn) as [Hp | [items Hp]].
    + left. apply lookup_union_Some_l. exact Hp.
    + right. exists items. apply lookup_union_Some_l. exact Hp.
Qed.

Lemma initialTelemetry_keys : dom (initialTelemetry (num := num)) = telemetry_keys.
Proof. apply initialState_keys. Qed.

Lemma updateTelemetry_all_shape (ds : list (JSValue num))
    (prev snap : gmap string (JSValue num)) :
  dom prev = telemetry_keys ->
  (prev !! "pos" = Some JNull \/ exists items, prev !! "pos" = Some (JArr items)) ->
  updateTelemetry_all ds prev = Some snap ->
  dom snap = telemetry_keys /\
  (snap !! "pos" = Some JNull \/ exists items, snap !! "pos" = Some (JArr items)).
Proof.
  revert prev. induction ds as [|d ds IH]; intros prev Hk Hp Hall; simpl in Hall.
  - injection Hall as <-. split; assumption.
  - destruct (updateTelemetry d prev) as [next|] eqn:Hu; [| discriminate].
    simpl in Hall.
    destruct (updateTelemetry_shape d prev next Hk Hu) as [Hk' Hp'].
    exact (IH next Hk' Hp' Hall).
Qed.

(** Every snapshot the updater produces from the initial one, along any
    sequence of telemetry data on which it returns, has exactly the six
    keys, and its [pos] is [null] or an array: never [undefined], a
    number or a string. *)
Theorem snapshot_shape_kept (ds : list (JSValue num)) (snap : gmap string (JSValue num)) :
  updateTelemetry_all ds initialTelemetry = Some snap ->
  dom snap = telemetry_keys /\
  (snap !! "pos" = Some JNull \/ exists items, snap !! "pos" = Some (JArr items)).
Proof.
  apply updateTelemetry_all_shape; [apply initialTelemetry_keys | left; reflexivity].
Qed.

(** On a snapshot the updater produced from the initial one, the updater
    returns the normalised update alone (and raises when normalising
    does): nothing of the snapshot it is applied to is left in the
    result. *)
Theorem snapshot_is_last_update (ds : list (JSValue num)) (d : JSValue num)
    (prev : gmap string (JSValue num)) :
  updateTelemetry_all ds initialTelemetry = Some prev ->
  updateTelemetry d prev = normalizeTelemetry d.
Proof.
  intros Hprev.
  destruct (updateTelemetry_all_shape ds initialTelemetry prev
              initialTelemetry_keys (or_introl eq_refl) Hprev) as [Hk _].
  unfold updateTelemetry.
  destruct (normalizeTelemetry d) as [upd|] eqn:Hn; [| reflexivity].
  simpl. f_equal. apply update_absorbs; [apply (normalizeTelemetry_dom _ _ Hn) | exact Hk].
Qed.

(** ** The log *)

Lemma log_lines_addLog (ty : LogType) (msg : string) (st : AppState num) :
  log_lines (addLog ty msg st) = take 100 ((ty, msg) :: log_lines st).
Proof.
  unfold log_lines. rewrite addLog_logs. symmetry.
  apply (firstn_map (fun e => (type e, message e)) 100
           ({| id := Math_random_id (created st);
               timestamp := Date_toLocaleTimeString (created st);
               message := msg; type := ty |} :: logs st)).
Qed.

(** Cutting to a hundred after each insertion is cutting once at the
    end. *)
Lemma take_cons_take {A : Type} (x : A) (l : list A) :
  take 100 (x :: take 100 l) = take 100 (x :: l).
Proof.
  change (x :: take 99 (take 100 l) = x :: take 99 l).
  rewrite take_take. reflexivity.
Qed.

Lemma take_app_take {A : Type} (n : nat) (l k : list A) :
  take n (l ++ take n k) = take n (l ++ k).
Proof.
  rewrite !take_app, take_take. f_equal. f_equal. lia.
Qed.

Lemma log_lines_addLogs (lines : list (LogType * string)) (st : AppState num) :
  length (logs st) <= 100 ->
  log_lines (addLogs lines st) = take 100 (reverse lines ++ log_lines st).
Proof.
  unfold addLogs. revert st.
  induction lines as [|[ty msg] lines IH]; intros st Hst; simpl.
  - symmetry. apply take_ge. unfold log_lines. rewrite length_map. exact Hst.
  - rewrite IH by apply addLog_length.
    rewrite log_lines_addLog, take_app_take, reverse_cons, <- app_assoc. reflexivity.
Qed.

(** After any sequence of insertions into the empty log, the log is the
    sequence itself, newest first, cut to its hundred most recent
    entries. *)
Theorem log_is_recent_history (lines : list (LogType * string)) :
  log_lines (addLogs lines (initialState (num := num))) = take 100 (reverse lines) /\
  length (logs (addLogs lines (initialState (num := num)))) = Nat.min 100 (length lines).
Proof.
  assert (Hlines : log_lines (addLogs lines (initialState (num := num)))
                   = take 100 (reverse lines)).
  { rewrite log_lines_addLogs by (simpl; lia). simpl. rewrite app_nil_r. reflexivity. }
  split; [exact Hlines |].
  apply (f_equal length) in Hlines.
  unfold log_lines in Hlines at 1. rewrite length_map in Hlines.
  rewrite Hlines, length_take, length_reverse. reflexivity.
Qed.

(** What follows a prefix, with the prefix back in front, is the string. *)
Lemma after_prefix_app (p s rest : string) :
  after_prefix p s = Some rest -> s = p ++ rest.
Proof.
  revert s. induction p as [|a p IH]; intros s Hs; simpl in Hs.
  - injection Hs as ->. reflexivity.
  - destruct s as [|b s]; [discriminate |].
    destruct (Ascii.eqb_spec a b) as [-> | Hne]; [| discriminate].
    change (String b s = String b (p ++ rest)). f_equal. apply IH. exact Hs.
Qed.

Lemma after_prefix_None (p s : string) :
  after_prefix p s = None -> startsWith s p = false.
Proof.
  unfold startsWith. revert s. induction p as [|a p IH]; intros s Hs; simpl in Hs.
  - discriminate.
  - destruct s as [|b s]; [reflexivity |]. simpl.
    destruct (ascii_dec a b) as [-> | Hne]; [| reflexivity].
    rewrite Ascii.eqb_refl in Hs. apply IH. exact Hs.
Qed.

Lemma skip_colon_split (s : string) :
  exists colon,
    (colon = "" \/ colon = ":") /\
    s = colon ++ skip_colon s /\
    (colon = "" -> skip_colon s = s).
Proof.
  destruct s as [|c s]; [exists ""; repeat split; auto |].
  destruct (Ascii.eqb_spec c ":") as [-> | Hne].
  - exists ":". repeat split; auto. discriminate.
  - exists "". assert (Hsame : skip_colon (String c s) = String c s).
    { unfold skip_colon.
      destruct c as [[] [] [] [] [] [] [] []]; try reflexivity. contradiction. }
    rewrite Hsame. repeat split; auto.
Qed.

Lemma skip_spaces_split (s : string) :
  exists blanks,
    all_spaces blanks = true /\
    s = blanks ++ skip_spaces s /\
    skip_spaces (skip_spaces s) = skip_spaces s.
Proof.
  induction s as [|c s (blanks & Hall & Hs & Hidem)]; [exists ""; repeat split |].
  simpl. destruct (is_regexp_space c) eqn:Hc.
  - exists (String c blanks). split; [simpl; rewrite Hc; exact Hall |]. split.
    + change (String c s = String c (blanks ++ skip_spaces s)). f_equal. exact Hs.
    + exact Hidem.
  - exists "". repeat split. simpl. rewrite Hc. reflexivity.
Qed.

(** What [:?\s*] takes off the text that follows a tag. *)
Lemma tag_rest_split (rest : string) :
  exists colon blanks,
    (colon = "" \/ colon = ":") /\
    all_spaces blanks = true /\
    rest = colon ++ blanks ++ skip_spaces (skip_colon rest) /\
    skip_spaces (skip_spaces (skip_colon rest)) = skip_spaces (skip_colon rest) /\
    (colon = "" ->
     skip_colon (blanks ++ skip_spaces (skip_colon rest))
     = blanks ++ skip_spaces (skip_colon rest)).
Proof.
  destruct (skip_colon_split rest) as (colon & Hcolon & Hrest & Hnone).
  destruct (skip_spaces_split (skip_colon rest)) as (blanks & Hall & Hs & Hidem).
  exists colon, blanks. repeat split; try assumption.
  - rewrite <- Hs. exact Hrest.
  - intros Hc. rewrite <- Hs, (Hnone Hc). exact (Hnone Hc).
Qed.

(** What [api.onLog] records for a line is the line itself when it starts
    with none of [TX], [RX], [SYS]; otherwise it is the line without that
    tag, the colon after it if there is one, and all the blanks that
    follow: nothing else is cut, and nothing of these is left in front. *)
Theorem strip_tag_cuts_only_the_tag (msg : string) :
  (startsWith msg "TX" = false /\ startsWith msg "RX" = false /\
   startsWith msg "SYS" = false /\ strip_tag msg = msg) \/
  (exists tag colon blanks,
     (tag = "TX" \/ tag = "RX" \/ tag = "SYS") /\
     (colon = "" \/ colon = ":") /\
     all_spaces blanks = true /\
     msg = tag ++ colon ++ blanks ++ strip_tag msg /\
     skip_spaces (strip_tag msg) = strip_tag msg /\
     (colon = "" -> skip_colon (blanks ++ strip_tag msg) = blanks ++ strip_tag msg)).
Proof.
  unfold strip_tag.
  destruct (after_prefix "TX" msg) as [rest|] eqn:Htx.
  { right. destruct (tag_rest_split rest) as (colon & blanks & Hc & Hb & Hrest & Hi & Hn).
    exists "TX", colon, blanks. repeat split; auto.
    rewrite <- Hrest. apply after_prefix_app. exact Htx. }
  destruct (after_prefix "RX" msg) as [rest|] eqn:Hrx.
  { right. destruct (tag_rest_split rest) as (colon & blanks & Hc & Hb & Hrest & Hi & Hn).
    exists "RX", colon, blanks. repeat split; auto.
    rewrite <- Hrest. apply after_prefix_app. exact Hrx. }
  destruct (after_prefix "SYS" msg) as [rest|] eqn:Hsys.
  { right. destruct (tag_rest_split rest) as (colon & blanks & Hc & Hb & Hrest & Hi & Hn).
    exists "SYS", colon, blanks. repeat split; auto.
    rewrite <- Hrest. apply after_prefix_app. exact Hsys. }
  left. repeat split; auto using after_prefix_None.
Qed.

(** A line that carries its category in front, as ["TX: "], ["RX: "] or
    ["SYS: "], is recorded by [api.onLog] under that category, with the
    tag and the blanks after it removed. *)
Theorem onLog_reads_the_tag (body : string) (st : AppState num) :
  log_lines (App_onLog ("TX: " ++ body) st) = take 100 ((tx, skip_spaces body) :: log_lines st) /\
  log_lines (App_onLog ("RX: " ++ body) st) = take 100 ((rx, skip_spaces body) :: log_lines st) /\
  log_lines (App_onLog ("SYS: " ++ body) st) = take 100 ((sys, skip_spaces body) :: log_lines st).
Proof.
  unfold App_onLog. rewrite !log_lines_addLog. repeat split; reflexivity.
Qed.

(** ** The session client *)

Lemma notify_wire {U A : Type} (cb : option (A -> U -> U)) (a : A) (w : World num U) :
  wire (notify cb a w) = wire w.
Proof. destruct cb; reflexivity. Qed.

Lemma log_wire {U : Type} (api : RobotApi num U) (ty msg : string) (w : World num U) :
  wire (log api ty msg w) = wire w.
Proof. apply notify_wire. Qed.

(** Every call of [sendCmd] puts exactly one request on the network: one
    frame on the socket when it is connected, one POST otherwise; never
    both, and never a second attempt, however the request settles. *)
Theorem sendCmd_one_request {U : Type} (api : RobotApi num U) (cmd : string)
    (net : Awaited (Awaited string)) (w : World num U) :
  exists w',
    sendCmd api cmd net w = Returns w' /\
    wire w' = (wire w ++ [if socket_ready api
                          then Emit "cmd" (JObj [("cmd", JStr cmd)])
                          else fallback_request cmd])%list.
Proof.
  unfold sendCmd, fallback_request. destruct (socket_ready api).
  - eexists. split; [reflexivity |]. rewrite log_wire. reflexivity.
  - destruct net as [[text | e] | e]; eexists; (split; [reflexivity |]);
      rewrite log_wire; simpl; rewrite log_wire; reflexivity.
Qed.

(** [sendCmd] calls no callback but the log callback: once on the socket
    path, twice on the fallback path (the attempt, then the response or
    the failure), with the lines of [sendCmd_lines]. *)
Theorem sendCmd_only_logs (s : option Socket) (cmd : string)
    (net : Awaited (Awaited string)) (w : World num (list (Notification num))) :
  exists w',
    sendCmd (recorder s) cmd net w = Returns w' /\
    ui w' = (ui w ++ map LogLine (sendCmd_lines (socket_ready (recorder (num := num) s)) cmd net))%list.
Proof.
  unfold sendCmd, sendCmd_lines. destruct (socket_ready (recorder (num := num) s)).
  - eexists. split; reflexivity.
  - destruct net as [[text | e] | e]; eexists; (split; [reflexivity |]);
      simpl; rewrite <- app_assoc; reflexivity.
Qed.

(** Every line of [sendCmd] is recorded by the dashboard as a system
    entry with its text unchanged, whatever the command and the outcome. *)
Theorem sendCmd_entries_are_system (online : bool) (cmd : string)
    (net : Awaited (Awaited string)) (w : World num (AppState num)) :
  exists w',
    sendCmd (dashboard_api online) cmd net w = Returns w' /\
    log_lines (ui w') =
      take 100 (reverse (map (fun line => (sys, line)) (sendCmd_lines online cmd net))
                ++ log_lines (ui w)).
Proof.
  unfold sendCmd, sendCmd_lines. destruct online.
  - eexists. split; [reflexivity |].
    exact (log_lines_addLog sys ("WS: " ++ cmd) (ui w)).
  - destruct net as [[text | e] | e]; eexists; (split; [reflexivity |]).
    + transitivity (log_lines (addLog sys ("HTTP Resp: " ++ text)
                      (addLog sys ("HTTP: " ++ cmd ++ " (Fallback)") (ui w))));
        [reflexivity |].
      rewrite !log_lines_addLog. apply take_cons_take.
    + transitivity (log_lines (addLog sys ("HTTP Send Failed: " ++ error_message e)
                      (addLog sys ("HTTP: " ++ cmd ++ " (Fallback)") (ui w))));
        [reflexivity |].
      rewrite !log_lines_addLog. apply take_cons_take.
    + transitivity (log_lines (addLog sys ("HTTP Send Failed: " ++ error_message e)
                      (addLog sys ("HTTP: " ++ cmd ++ " (Fallback)") (ui w))));
        [reflexivity |].
      rewrite !log_lines_addLog. apply take_cons_take.
Qed.

Lemma strict_eq_str_true (v : JSValue num) (t : string) :
  strict_eq_str v t = true <-> v = JStr t.
Proof.
  destruct v; simpl; split; try discriminate.
  - intros Heq. apply String.eqb_eq in Heq. congruence.
  - intros [= ->]. apply String.eqb_refl.
Qed.

Lemma template_string_None (v : JSValue num) :
  template_string v = None <-> ToString_raises v = true.
Proof. unfold template_string. destruct (ToString_raises v); split; congruence. Qed.

(** The branch the handler takes on an object it can read. *)
Ltac handler_branches Hm ty data :=
  unfold on_message_object in Hm;
  destruct (get _ "type") as [ty|] eqn:Hty; [| discriminate Hm]; simpl in Hm;
  destruct (strict_eq_str ty "telemetry") eqn:Htelemetry;
  [| destruct (strict_eq_str ty "ack") eqn:Hack;
     [| destruct (strict_eq_str ty "log") eqn:Hlog]];
  try (destruct (get _ "data") as [data|] eqn:Hdata; [| discriminate Hm]; simpl in Hm).




Lemma on_message_object_None {U : Type} (api : RobotApi num U) (obj : JSValue num)
    (w : World num U) :
  on_message_object api obj w = None <->
  nullish obj = true \/
  exists data, get obj "type" = Some (JStr "log") /\ get obj "data" = Some data /\
               ToString_raises data = true.
Proof.
  destruct (nullish obj) eqn:Hnull.
  { split; [intros _; left; reflexivity |].
    intros _. destruct obj; try discriminate; reflexivity. }
  assert (Hget : forall k, exists v, get obj k = Some v).
  { intros k. destruct obj; try discriminate; simpl; eauto. }
  destruct (Hget "type") as [ty Hty]. destruct (Hget "data") as [data Hdata].
  unfold on_message_object. rewrite Hty. simpl.
  destruct (strict_eq_str ty "telemetry") eqn:Htelemetry.
  { rewrite Hdata. simpl. split; [discriminate |].
    intros [Hn | (d & Hlog & _)]; [discriminate |].
    assert (ty = JStr "log") by congruence. subst ty. discriminate. }
  destruct (strict_eq_str ty "ack") eqn:Hack.
  { rewrite Hdata. simpl. split; [discriminate |].
    intros [Hn | (d & Hlog & _)]; [discriminate |].
    assert (ty = JStr "log") by congruence. subst ty. discriminate. }
  destruct (strict_eq_str ty "log") eqn:Hlog.
  - apply strict_eq_str_true in Hlog. subst ty.
    rewrite Hdata. simpl.
    destruct (template_string data) as [text|] eqn:Htext; simpl.
    + split; [discriminate |].
      intros [Hn | (d & _ & Hd & Hraise)]; [discriminate |].
      assert (d = data) by congruence. subst d.
      apply template_string_None in Hraise. congruence.
    + split; [| reflexivity]. intros _. right. exists data.
      repeat split; try assumption. apply template_string_None. exact Htext.
  - split; [discriminate |].
    intros [Hn | (d & Hl & _)]; [discriminate |].
    assert (ty = JStr "log") by congruence. subst ty. discriminate.
Qed.

(** The ['message'] handler throws in exactly two cases: what it has to
    classify is [null] or [undefined] (a [null] payload, or a text such as
    ["null"] that parses to it), where reading [obj.type] raises; or the
    message has type ["log"] and the string conversion of its data
    raises.  Text that does not parse never makes it throw. *)
Theorem on_message_throws_exactly_when {U : Type} (api : RobotApi num U) (payload : JSValue num)
    (w : World num U) :
  on_message api payload w = None <->
  exists obj,
    decoded payload = Some obj /\
    (nullish obj = true \/
     exists data, get obj "type" = Some (JStr "log") /\ get obj "data" = Some data /\
                  ToString_raises data = true).
Proof.
  assert (Hobj : forall obj,
             on_message_object api obj w = None <->
             exists o, Some obj = Some o /\
                       (nullish o = true \/
                        exists data, get o "type" = Some (JStr "log") /\
                                     get o "data" = Some data /\
                                     ToString_raises data = true)).
  { intros obj. rewrite on_message_object_None. split.
    - intros Hn. exists obj. split; [reflexivity | exact Hn].
    - intros (o & [= <-] & Hn). exact Hn. }
  destruct payload; try apply Hobj.
  simpl. destruct (JSON_parse s) as [obj|]; [apply Hobj |].
  split; [discriminate | intros (o & Ho & _); discriminate].
Qed.

Lemma on_message_object_wire {U : Type} (api : RobotApi num U) (obj : JSValue num)
    (w w' : World num U) :
  on_message_object api obj w = Some w' -> wire w' = wire w.
Proof.
  intros Hm. handler_branches Hm ty data;
    try (destruct (template_string data) as [text|]; [| discriminate Hm]; simpl in Hm);
    injection Hm as <-; unfold log; rewrite ?notify_wire; reflexivity.
Qed.

(** Handling an inbound message never puts anything on the network,
    whatever the payload and the callbacks. *)
Theorem on_message_never_sends {U : Type} (api : RobotApi num U) (payload : JSValue num)
    (w w' : World num U) :
  on_message api payload w = Some w' -> wire w' = wire w.
Proof.
  destruct payload; try apply on_message_object_wire.
  simpl. destruct (JSON_parse s) as [obj|]; [apply on_message_object_wire |].
  intros [= <-]. apply log_wire.
Qed.

Lemma on_message_object_outcomes (s : option Socket) (obj : JSValue num)
    (w w' : World num (list (Notification num))) :
  on_message_object (recorder s) obj w = Some w' ->
  exists seen,
    ui w' = (ui w ++ seen)%list /\
    ((exists data, seen = [TelemetryReceived data]) \/
     (exists msg line, seen = [AckReceived msg; LogLine line]) \/
     (exists line, seen = [LogLine line])).
Proof.
  intros Hm. handler_branches Hm ty data;
    try (destruct (template_string data) as [text|]; [| discriminate Hm]; simpl in Hm);
    injection Hm as <-; simpl;
    rewrite <- ?app_assoc; eexists; (split; [reflexivity |]); eauto.
Qed.

(** One inbound message has one of three outcomes: one telemetry
    callback; one acknowledgement callback followed by one log line; or
    one log line alone.  The connectivity callback is never called, and
    nothing is called twice. *)
Theorem on_message_outcomes (s : option Socket) (payload : JSValue num)
    (w w' : World num (list (Notification num))) :
  on_message (recorder s) payload w = Some w' ->
  exists seen,
    ui w' = (ui w ++ seen)%list /\
    ((exists data, seen = [TelemetryReceived data]) \/
     (exists msg line, seen = [AckReceived msg; LogLine line]) \/
     (exists line, seen = [LogLine line])).
Proof.
  destruct payload; try apply on_message_object_outcomes.
  simpl. destruct (JSON_parse s0) as [obj|]; [apply on_message_object_outcomes |].
  intros [= <-]. exists [LogLine s0]. split; [reflexivity |]. eauto.
Qed.

Lemma on_message_object_other (online : bool) (obj : JSValue num)
    (w w' : World num (AppState num)) :
  on_message_object (dashboard_api online) obj w = Some w' ->
  match get obj "type" with
  | Some ty => strict_eq_str ty "telemetry"
  | None => false
  end = false ->
  telemetry (ui w') = telemetry (ui w) /\ connected (ui w') = connected (ui w).
Proof.
  intros Hm Hother. handler_branches Hm ty data;
    try discriminate Hother;
    try (destruct (template_string data) as [text|]; [| discriminate Hm]; simpl in Hm);
    injection Hm as <-; split; reflexivity.
Qed.

(** On the dashboard a message that is not a telemetry message (an
    acknowledgement, a log message, anything else, text that does not
    parse) leaves the telemetry snapshot and the connectivity flag as
    they are. *)
Theorem other_messages_keep_snapshot (online : bool) (payload : JSValue num)
    (w w' : World num (AppState num)) :
  on_message (dashboard_api online) payload w = Some w' ->
  telemetry_message payload = false ->
  telemetry (ui w') = telemetry (ui w) /\ connected (ui w') = connected (ui w).
Proof.
  unfold telemetry_message.
  destruct payload; try apply on_message_object_other.
  simpl. destruct (JSON_parse s) as [obj|]; [apply on_message_object_other |].
  intros [= <-] _. split; reflexivity.
Qed.

Lemma channel_events_connected (online : bool) (events : list bool)
    (w : World num (AppState num)) :
  connected (ui (channel_events (dashboard_api online) events w))
  = default (connected (ui w)) (last events).
Proof.
  unfold channel_events. revert w.
  induction events as [|up events IH]; intros w; [reflexivity |].
  simpl. rewrite IH, (last_cons up events).
  destruct (last events) as [b|]; [reflexivity |].
  destruct up; reflexivity.
Qed.

(** After any sequence of ['connect'] and ['disconnect'] events the
    dashboard's [connected] flag is the last event (what it was, when
    there was none), and the events have put nothing on the network. *)
Theorem connected_is_last_event (online : bool) (events : list bool)
    (w : World num (AppState num)) :
  connected (ui (channel_events (dashboard_api online) events w))
    = default (connected (ui w)) (last events) /\
  wire (channel_events (dashboard_api online) events w) = wire w.
Proof.
  split; [apply channel_events_connected |].
  unfold channel_events. revert w.
  induction events as [|up events IH]; intros w; [reflexivity |].
  simpl. rewrite IH. destruct up; reflexivity.
Qed.

End Sessions_properties.

(** ** The controls *)

Lemma clamp_byte (x : Integral) :
  x = INaN /\ Math_min (IInt 255) (Math_max (IInt 0) x) = INaN \/
  exists z, (0 <= z <= 255)%Z /\ Math_min (IInt 255) (Math_max (IInt 0) x) = IInt z.
Proof.
  destruct x as [| | |z]; simpl.
  - left. split; reflexivity.
  - right. exists 0%Z. split; [lia | reflexivity].
  - right. exists 255%Z. split; [lia | reflexivity].
  - right. exists (Z.min 255 (Z.max 0 z)). split; [lia | reflexivity].
Qed.

(** [commitSpeed] sends and stores one value [v]: the floor of its
    argument brought into 0..255, except that [NaN] goes through the
    clamp unchanged.  A drive speed, whether committed as [LSPD] or as
    [RSPD], goes to both wheels, [LSPD] first; a roller speed goes out
    once. *)
Theorem commitSpeed_clamps (kind : SpeedKind) (val : Number) (c : Controls) :
  exists v : Integral,
    match val with
    | NaN => v = INaN
    | NegInfinity => v = IInt 0
    | PosInfinity => v = IInt 255
    | Finite q => v = IInt (Z.min 255 (Z.max 0 (Qround.Qfloor q)))
    end /\
    (v = INaN \/ exists z, v = IInt z /\ (0 <= z <= 255)%Z) /\
    (commitSpeed kind val c).2 =
      match kind with
      | ROLLERSPD => ["ROLLERSPD " ++ Integral_toString v]
      | _ => ["LSPD " ++ Integral_toString v; "RSPD " ++ Integral_toString v]
      end /\
    (commitSpeed kind val c).1 =
      match kind with
      | ROLLERSPD => {| rollerOn := rollerOn c; driveSpeed := driveSpeed c; rollerSpeed := v |}
      | _ => {| rollerOn := rollerOn c; driveSpeed := v; rollerSpeed := rollerSpeed c |}
      end.
Proof.
  exists (Math_min (IInt 255) (Math_max (IInt 0) (Math_floor val))).
  split; [destruct val; reflexivity |]. split.
  - destruct (clamp_byte (Math_floor val)) as [[_ ->] | (z & Hz & ->)]; [left | right]; eauto.
  - destruct kind; split; reflexivity.
Qed.

Lemma handleSubmit_byte (parseInt : string -> Integral) (localVal : string) :
  exists z,
    (0 <= z <= 255)%Z /\
    handleSubmit parseInt localVal = (pretty z, IInt z) /\
    match parseInt localVal with
    | INaN | INegInfinity => z = 0%Z
    | IPosInfinity => z = 255%Z
    | IInt n => z = Z.min 255 (Z.max 0 n)
    end.
Proof.
  unfold handleSubmit. destruct (parseInt localVal) as [| | |n]; simpl.
  - exists 0%Z. repeat split; lia.
  - exists 0%Z. repeat split; lia.
  - exists 255%Z. repeat split; lia.
  - destruct (Z.ltb_spec n 0) as [Hneg | Hpos]; simpl.
    + exists 0%Z. repeat split; lia.
    + destruct (Z.ltb_spec 255 n) as [Hbig | Hsmall]; simpl.
      * exists 255%Z. repeat split; lia.
      * exists n. repeat split; lia.
Qed.

(** Whatever text the speed input holds and whatever [parseInt] makes of
    it, [handleSubmit] commits an integer from 0 to 255 and shows that
    same integer in the input: 0 for text that is not a number or is
    negative, 255 for anything above. *)
Theorem handleSubmit_commits_a_byte (parseInt : string -> Integral) (localVal : string) :
  exists z,
    (0 <= z <= 255)%Z /\
    handleSubmit parseInt localVal = (pretty z, IInt z) /\
    match parseInt localVal with
    | INaN | INegInfinity => z = 0%Z
    | IPosInfinity => z = 255%Z
    | IInt n => z = Z.min 255 (Z.max 0 n)
    end.
Proof. apply handleSubmit_byte. Qed.

(** The value [handleSubmit] commits passes the clamp of [commitSpeed]
    unchanged: the commands carry the number shown in the input, and the
    speed cell holds the committed value. *)
Theorem submitted_speed_is_sent (parseInt : string -> Integral) (localVal : string)
    (kind : SpeedKind) (c : Controls) :
  (commitSpeed kind (to_number (handleSubmit parseInt localVal).2) c).2 =
    match kind with
    | ROLLERSPD => ["ROLLERSPD " ++ (handleSubmit parseInt localVal).1]
    | _ => ["LSPD " ++ (handleSubmit parseInt localVal).1;
            "RSPD " ++ (handleSubmit parseInt localVal).1]
    end /\
  match kind with
  | ROLLERSPD => rollerSpeed
  | _ => driveSpeed
  end (commitSpeed kind (to_number (handleSubmit parseInt localVal).2) c).1
    = (handleSubmit parseInt localVal).2.
Proof.
  destruct (handleSubmit_byte parseInt localVal) as (z & Hz & -> & _).
  assert (Hsafe : Math_min (IInt 255) (Math_max (IInt 0) (Math_floor (to_number (IInt z))))
                  = IInt z).
  { unfold to_number, Math_floor. rewrite Qround.Qfloor_Z. simpl. f_equal. lia. }
  cbn [fst snd]. unfold commitSpeed. rewrite Hsafe. destruct kind; split; reflexivity.
Qed.

(** Two presses of the roller button restore the switch and send the two
    roller commands, the one for the new state first. *)
Theorem toggleRoller_twice (c : Controls) :
  (toggleRoller (toggleRoller c).1).1 = c /\
  ((toggleRoller c).2 ++ (toggleRoller (toggleRoller c).1).2)%list =
    if rollerOn c then ["ROLLER OFF"; "ROLLER ON"] else ["ROLLER ON"; "ROLLER OFF"].
Proof.
  destruct c as [[] drive roller]; split; reflexivity.
Qed.

(** The hold timer keeps to one of two shapes. *)
Lemma startHold_shape (cmd : string) (h : Hold) :
  (holdInterval h = None /\ intervals h = ∅) \/
  (exists n c, holdInterval h = Some (S n) /\ intervals h = {[ S n := c ]}) ->
  holdInterval (startHold cmd h).1 = Some (S (timers_created h)) /\
  intervals (startHold cmd h).1 = {[ S (timers_created h) := cmd ]}.
Proof.
  intros [[Hc Hi] | (n & c & Hc & Hi)]; unfold startHold, current_timer; rewrite Hc; simpl.
  - rewrite Hi. split; [reflexivity | apply insert_empty].
  - rewrite Hi, delete_singleton_eq. split; [reflexivity | apply insert_empty].
Qed.

Lemma stopHold_shape (h : Hold) :
  (holdInterval h = None /\ intervals h = ∅) \/
  (exists n c, holdInterval h = Some (S n) /\ intervals h = {[ S n := c ]}) ->
  holdInterval (stopHold h) = None /\ intervals (stopHold h) = ∅.
Proof.
  intros [[Hc Hi] | (n & c & Hc & Hi)]; unfold stopHold, current_timer; rewrite Hc; simpl.
  - split; assumption.
  - rewrite Hi, delete_singleton_eq. split; reflexivity.
Qed.

Lemma pointer_events_shape (events : list Pointer) :
  match last events with
  | Some (PointerDown cmd) =>
      exists n, holdInterval (pointer_events events initialHold) = Some (S n) /\
                intervals (pointer_events events initialHold) = {[ S n := cmd ]}
  | _ =>
      holdInterval (pointer_events events initialHold) = None /\
      intervals (pointer_events events initialHold) = ∅
  end.
Proof.
  induction events as [|e events IH] using rev_ind; [split; reflexivity |].
  unfold pointer_events in *. rewrite foldl_snoc, last_snoc.
  set (h := foldl (fun acc e0 => pointer_event e0 acc) initialHold events) in *.
  assert (Hshape : (holdInterval h = None /\ intervals h = ∅) \/
                   (exists n c, holdInterval h = Some (S n) /\ intervals h = {[ S n := c ]})).
  { destruct (last events) as [[cmd|]|]; [right | left | left]; try exact IH.
    destruct IH as (n & Hc & Hi). eauto. }
  destruct e as [cmd|]; simpl.
  - exists (timers_created h). apply startHold_shape. exact Hshape.
  - apply stopHold_shape. exact Hshape.
Qed.

(** After any sequence of presses and releases of the direction buttons,
    at most one repeating timer is active: it sends the command of the
    last press, and none is active after a release (or before the first
    press). *)
Theorem hold_repeats_last_press (events : list Pointer) :
  interval_fires (pointer_events events initialHold) =
    match last events with
    | Some (PointerDown cmd) => [cmd]
    | _ => []
    end.
Proof.
  pose proof (pointer_events_shape events) as Hshape.
  unfold interval_fires.
  destruct (last events) as [[cmd|]|].
  - destruct Hshape as (n & _ & ->). rewrite map_to_list_singleton. reflexivity.
  - destruct Hshape as [_ ->]. rewrite map_to_list_empty. reflexivity.
  - destruct Hshape as [_ ->]. rewrite map_to_list_empty. reflexivity.
Qed.

(** * The properties on concrete inputs *)

(** C3 (defect of the code): the one-element array [[7]] is not a
    two-element pair, yet it is kept as the normalised [pos]; it is
    neither [null] nor [undefined]. *)
Lemma pos_one_element_array_kept :
  is_pair (JArr [JNum 7%Z]) = false /\
  exists upd : gmap string (JSValue Z),
    normalizeTelemetry (JObj [("pos", JArr [JNum 7%Z])]) = Some upd /\
    upd !! "pos" = Some (JArr [JNum 7%Z]) /\
    nullish (JArr [JNum 7%Z]) = false.
Proof.
  split; [reflexivity |]. eexists. split; [reflexivity |]. split; reflexivity.
Qed.

Lemma pos_kept_iff_array_witness :
  exists upd : gmap string (JSValue Z),
    normalizeTelemetry (JObj [("pos", JStr "A1"); ("us", JNum 12%Z)]) = Some upd /\
    upd !! "pos" = Some JNull.
Proof.
  eexists. split; [reflexivity |].
  apply (pos_kept_iff_array (JObj [("pos", JStr "A1"); ("us", JNum 12%Z)]) (JStr "A1"));
    reflexivity.
Defined.

(** C4, as stated, fails: the data provides [us] (holding [null]) and
    [US] (holding 5), and the normalised [us] is 5, not the long-form
    value. *)
Lemma null_long_form_not_preferred :
  own_property "us" [("us", JNull); ("US", JNum 5%Z)] = Some JNull /\
  own_property "US" [("us", JNull); ("US", JNum 5%Z)] = Some (JNum 5%Z) /\
  exists upd : gmap string (JSValue Z),
    normalizeTelemetry (JObj [("us", JNull); ("US", JNum 5%Z)]) = Some upd /\
    upd !! "us" = Some (JNum 5%Z) /\
    upd !! "us" <> Some JNull.
Proof.
  split; [reflexivity |]. split; [reflexivity |].
  eexists. split; [reflexivity |]. split; [reflexivity | discriminate].
Qed.

Lemma long_form_preferred_unless_nullish_witness :
  exists upd : gmap string (JSValue Z),
    normalizeTelemetry (JObj [("temp", JNum 31%Z); ("T", JNum 29%Z)]) = Some upd /\
    upd !! "temp" = Some (JNum 31%Z).
Proof.
  eexists. split; [reflexivity |].
  apply (long_form_preferred_unless_nullish
           (JObj [("temp", JNum 31%Z); ("T", JNum 29%Z)]) (JNum 31%Z) (JNum 29%Z) _ "temp" "T").
  - unfold short_forms. apply list_elem_of_further, list_elem_of_here.
  - reflexivity.
  - reflexivity.
  - reflexivity.
Defined.

Lemma log_bounded_and_evicts_oldest_witness :
  length (logs (addLogs (H := sample_platform) hundred_ticks initialState)) = 100 /\
  exists kept oldest,
    logs (addLogs (H := sample_platform) hundred_ticks initialState) = (kept ++ [oldest])%list /\
    length kept = 99 /\
    log_lines (addLog (H := sample_platform) tx "WS: F"
                 (addLogs (H := sample_platform) hundred_ticks initialState))
      = (tx, "WS: F") :: map (fun e => (type e, message e)) kept.
Proof.
  split; [vm_compute; reflexivity |].
  destruct (proj2 (log_bounded_and_evicts_oldest (H := sample_platform)) tx "WS: F"
              (addLogs (H := sample_platform) hundred_ticks initialState))
    as (kept & oldest & Hsplit & Hlen & Hnew).
  - vm_compute. reflexivity.
  - exists kept, oldest. split; [exact Hsplit |]. split; [exact Hlen |].
    unfold log_lines. rewrite Hnew. reflexivity.
Defined.

Lemma log_type_argument_discarded_witness :
  exists e,
    head (logs (ui (log (dashboard_api (H := sample_platform) true) "RX" "HTTP Resp: OK"
                      initialWorld))) = Some e /\
    type e = sys /\ message e = strip_tag "HTTP Resp: OK".
Proof.
  apply (proj2 (proj2 (log_type_argument_discarded (H := sample_platform)))); reflexivity.
Defined.

Lemma telemetry_paths_agree_witness :
  on_message (H := sample_platform) (recorder None)
    (JObj [("type", JStr "telemetry"); ("data", JObj [("us", JNum 10%Z)])])
    {| wire := []; ui := [] |}
  = Some (on_telemetry (recorder None) (JObj [("us", JNum 10%Z)]) {| wire := []; ui := [] |}).
Proof.
  destruct (telemetry_paths_agree (H := sample_platform) (recorder None)
              (JObj [("type", JStr "telemetry"); ("data", JObj [("us", JNum 10%Z)])])
              {| wire := []; ui := [] |} eq_refl)
    as (data & Hdata & Hmessage & _).
  simpl in Hdata. injection Hdata as <-. exact Hmessage.
Defined.

Lemma unparseable_text_logged_as_system_witness :
  (log_lines ∘ ui) <$>
    on_message (H := sample_platform) (dashboard_api (H := sample_platform) true)
      (JStr "not json{") initialWorld
  = Some [(sys, "not json{")].
Proof.
  apply (unparseable_text_logged_as_system (H := sample_platform) true None). reflexivity.
Defined.

Lemma snapshot_shape_kept_witness :
  exists snap : gmap string (JSValue Z),
    updateTelemetry_all [JObj [("us", JNum 3%Z)]; JObj [("pos", JStr "A1")]] initialTelemetry
      = Some snap /\
    dom snap = telemetry_keys /\
    (snap !! "pos" = Some JNull \/ exists items, snap !! "pos" = Some (JArr items)).
Proof.
  eexists. split; [reflexivity |].
  apply (snapshot_shape_kept [JObj [("us", JNum 3%Z)]; JObj [("pos", JStr "A1")]]).
  reflexivity.
Defined.

Lemma snapshot_is_last_update_witness :
  exists prev : gmap string (JSValue Z),
    updateTelemetry_all [JObj [("us", JNum 3%Z)]] initialTelemetry = Some prev /\
    updateTelemetry (JObj [("temp", JNum 20%Z)]) prev
      = normalizeTelemetry (JObj [("temp", JNum 20%Z)]).
Proof.
  eexists. split; [reflexivity |].
  apply (snapshot_is_last_update [JObj [("us", JNum 3%Z)]] (JObj [("temp", JNum 20%Z)])).
  reflexivity.
Defined.

Lemma on_message_never_sends_witness :
  exists w' : World Z (list (Notification Z)),
    on_message (H := sample_platform) (recorder None) (JStr "true") {| wire := []; ui := [] |}
      = Some w' /\
    wire w' = [].
Proof.
  eexists. split; [reflexivity |].
  apply (on_message_never_sends (H := sample_platform) (recorder None) (JStr "true")
           {| wire := []; ui := [] |}).
  reflexivity.
Defined.

Lemma on_message_outcomes_witness :
  exists (w' : World Z (list (Notification Z))) (seen : list (Notification Z)),
    on_message (H := sample_platform) (recorder None)
      (JObj [("type", JStr "log"); ("data", JStr "battery low")]) {| wire := []; ui := [] |}
      = Some w' /\
    ui w' = seen /\
    ((exists data, seen = [TelemetryReceived data]) \/
     (exists msg line, seen = [AckReceived msg; LogLine line]) \/
     (exists line, seen = [LogLine line])).
Proof.
  eexists. 
  destruct (on_message_outcomes (H := sample_platform) None
              (JObj [("type", JStr "log"); ("data", JStr "battery low")])
              {| wire := []; ui := [] |} _ eq_refl) as (seen & Hui & Hkind).
  exists seen. split; [reflexivity |]. split; [exact Hui | exact Hkind].
Defined.

Lemma other_messages_keep_snapshot_witness :
  exists w' : World Z (AppState Z),
    on_message (H := sample_platform) (dashboard_api (H := sample_platform) true)
      (JObj [("type", JStr "log"); ("data", JStr "battery low")]) initialWorld
      = Some w' /\
    telemetry (ui w') = initialTelemetry /\ connected (ui w') = false.
Proof.
  eexists. split; [reflexivity |].
  apply (other_messages_keep_snapshot (H := sample_platform) true
           (JObj [("type", JStr "log"); ("data", JStr "battery low")]) initialWorld);
    reflexivity.
Defined.

